(** * Smart Habit Tracker: the analytics core of [app2.py]

    A shallow embedding of the three pieces of logic of the dashboard:
    - [composite_score]                (app2.py, lines 31-41),
    - [analyze_week]                   (app2.py, lines 43-52),
    - [suggestions_from_averages]      (app2.py, lines 54-71) and the inline
      alert block of the weekly panel  (app2.py, lines 226-232).

    Numbers.  Every metric is a Python number.  They are embedded as exact
    rationals [Q]: [/] is exact division, the literals [0.18], [9.0], ... are
    the decimal fractions that are written in the source.  Binary64 rounding
    and the special values (NaN, the infinities) are outside this model;
    equality of numbers is [Qeq], written [==].

    Containers.  A pandas row (a [Series]) and the [averages] dictionary are
    finite maps from column names to numbers.  A [DataFrame] is the list of
    its rows in positional order, each with its index label. *)

From Stdlib Require Import QArith Qminmax Lqa.
From Stdlib Require Import Sorting.Permutation Sorting.Sorted.
From stdpp Require Import gmap strings list.

Open Scope Q_scope.

(** ** Python numbers and builtins *)

(** [x < y] on numbers, as a boolean. *)
Definition Qltb (x y : Q) : bool := negb (Qle_bool y x).

(** The builtin [min(a, b)] on two arguments: the first argument is kept
    unless the second one is strictly smaller. *)
Definition py_min (a b : Q) : Q := if Qltb b a then b else a.

(** ** Exceptions *)

Inductive exn : Type :=
| KeyError (key : string)
| LabelError (label : nat)
| ValueError.

Inductive result (A : Type) : Type :=
| Return (a : A)
| Raise (e : exn).
Arguments Return {A} a.
Arguments Raise {A} e.

#[global] Instance result_ret : MRet result := fun A a => Return a.

#[global] Instance result_bind : MBind result := fun A B k m =>
  match m with
  | Return a => k a
  | Raise e => Raise e
  end.

#[global] Instance result_fmap : FMap result := fun A B f m =>
  match m with
  | Return a => Return (f a)
  | Raise e => Raise e
  end.

(** ** Rows *)

(** A row handed to a function by [df.apply(f, axis=1)]: the cells of the
    numeric columns by column name. *)
Abbreviation Series := (gmap string Q).

(** [row.get(key, dflt)]. *)
Definition get (row : Series) (key : string) (dflt : Q) : Q :=
  default dflt (row !! key).

(** [avg[key]] on a dictionary: a missing key raises [KeyError]. *)
Definition subscript (d : gmap string Q) (key : string) : result Q :=
  match d !! key with
  | Some v => Return v
  | None => Raise (KeyError key)
  end.

(** ** Scoring engine (app2.py, lines 31-41) *)

Definition composite_score (row : Series) : Q :=
  let s := py_min (get row "sleep" 0 / 9.0) 1.0 in
  let hf := py_min (get row "healthy_food" 0 / 5.0) 1.0 in
  let jf := 1 - py_min (get row "junk_food" 0 / 5.0) 1.0 in
  let ex := py_min (get row "exercise" 0 / 60.0) 1.0 in
  let w := py_min (get row "water" 0 / 8.0) 1.0 in
  let r := py_min (get row "reading" 0 / 60.0) 1.0 in
  0.18 * s + 0.18 * hf + 0.12 * jf + 0.2 * ex + 0.16 * w + 0.16 * r.

(** ** Frames *)

(** One row of the entry frame.  [make_empty_df] (lines 27-29) creates the
    frame with the columns [date], [sleep], [healthy_food], [junk_food],
    [exercise], [water], [reading]; saving an entry may add further columns
    for custom habits.  A date is a [datetime.date], embedded as its
    proleptic ordinal, which orders dates as the calendar does. *)
Record Entry : Type := {
  date : Z;
  sleep : Q;
  healthy_food : Q;
  junk_food : Q;
  exercise : Q;
  water : Q;
  reading : Q;
  custom : gmap string Q
}.

(** The [Series] that [df.apply(..., axis=1)] builds for a row: one cell per
    numeric column.  Column names are unique in a frame, so a custom column
    never shadows one of the six fixed ones. *)
Definition row_series (e : Entry) : Series :=
  <["sleep" := sleep e]> (<["healthy_food" := healthy_food e]>
  (<["junk_food" := junk_food e]> (<["exercise" := exercise e]>
  (<["water" := water e]> (<["reading" := reading e]> (custom e)))))).

(** A frame: its rows in positional order, each with its index label. *)
Abbreviation DataFrame := (list (nat * Entry)).

(** A labelled column of numbers, such as [df["score"]]. *)
Abbreviation Column := (list (nat * Q)).

(** [df.apply(f, axis=1)]: the column of the values of [f] on the rows. *)
Definition apply_rows (f : Series -> Q) (df : DataFrame) : Column :=
  map (fun r => (r.1, f (row_series r.2))) df.

(** [col.idxmax()]: the label of the first occurrence of the maximum.  The
    scan keeps the running maximum and replaces it only by a strictly
    larger value.  An empty column raises [ValueError]. *)
Fixpoint idxmax_from (best : nat * Q) (rest : Column) : nat :=
  match rest with
  | [] => best.1
  | x :: rest' =>
      if Qltb best.2 x.2 then idxmax_from x rest' else idxmax_from best rest'
  end.

Definition idxmax (col : Column) : result nat :=
  match col with
  | [] => Raise ValueError
  | x :: rest => Return (idxmax_from x rest)
  end.

(** [df.loc[label, "date"]] is label based: one matching row gives its
    date, several matching rows give the sub-column of their dates, and a
    label that is not in the index raises. *)
Inductive loc_result : Type :=
| Scalar (d : Z)
| SubColumn (ds : list Z).

Definition loc_date (df : DataFrame) (label : nat) : result loc_result :=
  match filter (fun r => r.1 = label) df with
  | [] => Raise (LabelError label)
  | [r] => Return (Scalar (date r.2))
  | rs => Return (SubColumn (map (fun r => date r.2) rs))
  end.

(** [col.mean()]: the sum divided by the number of rows. *)
Definition sum_column (col : list Q) : Q := foldr Qplus 0 col.

Definition mean (col : list Q) : Q :=
  sum_column col / inject_Z (Z.of_nat (length col)).

(** [df[[c1; ...]].mean().to_dict()] on the six fixed columns. *)
Definition column (f : Entry -> Q) (df : DataFrame) : list Q :=
  map (fun r => f r.2) df.

Definition mean_to_dict (df : DataFrame) : gmap string Q :=
  <["sleep" := mean (column sleep df)]>
  (<["healthy_food" := mean (column healthy_food df)]>
  (<["junk_food" := mean (column junk_food df)]>
  (<["exercise" := mean (column exercise df)]>
  (<["water" := mean (column water df)]>
  (<["reading" := mean (column reading df)]> ∅))))).

(** [df[["date", "score"]].sort_values("date")]: the rows of the two
    columns, ascending by date.  pandas does not fix the relative order of
    rows with equal dates; this embedding inserts each row before the first
    row with a later or equal date. *)
Abbreviation ScoreFrame := (list (nat * (Z * Q))).

Fixpoint insert_by_date (x : nat * (Z * Q)) (sorted : ScoreFrame) : ScoreFrame :=
  match sorted with
  | [] => [x]
  | y :: rest =>
      if (x.2.1 <=? y.2.1)%Z then x :: y :: rest
      else y :: insert_by_date x rest
  end.

Definition sort_values_date (sf : ScoreFrame) : ScoreFrame :=
  foldr insert_by_date [] sf.

(** ** Window analyzer (app2.py, lines 43-52) *)

Record WeekSummary : Type := {
  best_day : loc_result;
  averages : gmap string Q;
  scores : ScoreFrame
}.

(** The frame after [df["score"] = df.apply(composite_score, axis=1)],
    restricted to the columns [date] and [score]. *)
Definition date_score (df : DataFrame) : ScoreFrame :=
  map (fun r => (r.1, (date r.2, composite_score (row_series r.2)))) df.

Definition analyze_week (df_week : DataFrame) : result (option WeekSummary) :=
  match df_week with
  | [] => Return None
  | _ =>
      let df := df_week in
      let score := apply_rows composite_score df in
      best_idx ← idxmax score;
      best_day ← loc_date df best_idx;
      let averages := mean_to_dict df in
      Return (Some {| best_day := best_day;
                      averages := averages;
                      scores := sort_values_date (date_score df) |})
  end.

(** ** Advisory engine *)

Definition tip_sleep : string :=
  "Try to increase sleep (aim for 7-9 hours). Consider a consistent bedtime.".
Definition tip_water : string :=
  "Drink more water — target ~8 glasses daily. Set small reminders.".
Definition tip_exercise : string :=
  "Add more movement — even 20–30 min of brisk walk helps.".
Definition tip_healthy_food : string :=
  "Increase healthy food portions (fruits/veggies).".
Definition tip_junk_food : string :=
  "Reduce junk food frequency; swap one snack for fruit.".
Definition tip_reading : string :=
  "Try a short daily reading habit — 10–20 minutes.".
Definition tip_great_week : string :=
  "Great week! Keep up the balanced habits.".

(** [tips.append(msg)] when [cond] holds. *)
Definition append_if (cond : bool) (msg : string) (tips : list string) : list string :=
  if cond then tips ++ [msg] else tips.

(** [not tips]: a list is falsy exactly when it is empty. *)
Definition py_not (tips : list string) : bool :=
  match tips with
  | [] => true
  | _ => false
  end.

(** app2.py, lines 54-71. *)
Definition suggestions_from_averages (avg : gmap string Q) : result (list string) :=
  let tips := [] in
  v ← subscript avg "sleep";
  let tips := append_if (Qltb v 6) tip_sleep tips in
  v ← subscript avg "water";
  let tips := append_if (Qltb v 6) tip_water tips in
  v ← subscript avg "exercise";
  let tips := append_if (Qltb v 20) tip_exercise tips in
  v ← subscript avg "healthy_food";
  let tips := append_if (Qltb v 3) tip_healthy_food tips in
  v ← subscript avg "junk_food";
  let tips := append_if (Qltb 1 v) tip_junk_food tips in
  v ← subscript avg "reading";
  let tips := append_if (Qltb v 15) tip_reading tips in
  let tips := append_if (py_not tips) tip_great_week tips in
  Return tips.

Definition alert_water : string :=
  "Low average water intake — consider setting water reminders.".
Definition alert_sleep : string :=
  "Low average sleep — consistent schedule may help.".
Definition alert_exercise : string :=
  "Low average exercise minutes.".

(** The alert block of the weekly panel (app2.py, lines 226-232), as a
    function of the [averages] dictionary it reads. *)
Definition alerts (avgs : gmap string Q) : result (list string) :=
  let alerts := [] in
  v ← subscript avgs "water";
  let alerts := append_if (Qltb v 5) alert_water alerts in
  v ← subscript avgs "sleep";
  let alerts := append_if (Qltb v 6) alert_sleep alerts in
  v ← subscript avgs "exercise";
  let alerts := append_if (Qltb v 15) alert_exercise alerts in
  Return alerts.

(** ** The scoring table of the specification *)

Inductive direction : Type :=
| HigherBetter
| LowerBetter.

Record metric : Type := {
  name : string;
  cap : Q;
  dir : direction;
  weight : Q
}.

Definition m_sleep : metric :=
  {| name := "sleep"; cap := 9.0; dir := HigherBetter; weight := 0.18 |}.
Definition m_healthy_food : metric :=
  {| name := "healthy_food"; cap := 5.0; dir := HigherBetter; weight := 0.18 |}.
Definition m_junk_food : metric :=
  {| name := "junk_food"; cap := 5.0; dir := LowerBetter; weight := 0.12 |}.
Definition m_exercise : metric :=
  {| name := "exercise"; cap := 60.0; dir := HigherBetter; weight := 0.2 |}.
Definition m_water : metric :=
  {| name := "water"; cap := 8.0; dir := HigherBetter; weight := 0.16 |}.
Definition m_reading : metric :=
  {| name := "reading"; cap := 60.0; dir := HigherBetter; weight := 0.16 |}.

Definition metric_table : list metric :=
  [m_sleep; m_healthy_food; m_junk_food; m_exercise; m_water; m_reading].

(** The value of a fixed field, a field that is absent counting as 0. *)
Definition field_or_zero (row : Series) (key : string) : Q :=
  match row !! key with
  | Some v => v
  | None => 0
  end.

(** [min(value / cap, 1.0)], inverted for the lower-is-better metric. *)
Definition normalized (m : metric) (v : Q) : Q :=
  match dir m with
  | HigherBetter => Qmin (v / cap m) 1.0
  | LowerBetter => 1 - Qmin (v / cap m) 1.0
  end.

Definition contribution (m : metric) (row : Series) : Q :=
  weight m * normalized m (field_or_zero row (name m)).

Definition weighted_formula (row : Series) : Q :=
  foldr (fun m acc => contribution m row + acc) 0 metric_table.

(** The full contribution of a metric whose field is at or above its cap. *)
Definition saturated (m : metric) : Q :=
  match dir m with
  | HigherBetter => weight m
  | LowerBetter => 0
  end.

(** The score as a function of the six field values. *)
Definition score_of (s hf jf ex w r : Q) : Q :=
  0.18 * py_min (s / 9.0) 1.0 + 0.18 * py_min (hf / 5.0) 1.0
  + 0.12 * (1 - py_min (jf / 5.0) 1.0) + 0.2 * py_min (ex / 60.0) 1.0
  + 0.16 * py_min (w / 8.0) 1.0 + 0.16 * py_min (r / 60.0) 1.0.

(** A row with a negative field, as a CSV import can produce. *)
Definition negative_row : Series :=
  <["sleep" := -9]> (<["healthy_food" := 5]> (<["junk_food" := 5]>
  (<["exercise" := 0]> (<["water" := 0]> (<["reading" := 0]> ∅))))).

(** The signed weight that a saturated field adds to the score of the row
    in which that field is 0. *)
Definition saturation_step (m : metric) : Q :=
  match dir m with
  | HigherBetter => weight m
  | LowerBetter => - weight m
  end.

(** The score of [row] once the field of metric [m] is set to [x], the
    other fields being held fixed. *)
Definition score_with (row : Series) (m : metric) (x : Q) : Q :=
  composite_score (<[name m := x]> row).

(** The second day of the worked example of the specification. *)
Definition day2_row : Series :=
  <["sleep" := 8]> (<["water" := 8]> (<["exercise" := 45]>
  (<["healthy_food" := 4]> (<["junk_food" := 0]> (<["reading" := 30]> ∅))))).

(** A row that carries only one of the six fixed fields. *)
Definition sparse_row : Series := <["sleep" := 8]> ∅.

(** A row that scores 0 with non-negative fields. *)
Definition junk_only_row : Series := <["junk_food" := 7]> ∅.

(** ** The window analyzer of the specification *)

(** The composite score of a record. *)
Definition entry_score (e : Entry) : Q := composite_score (row_series e).

(** The arithmetic mean of a field over N records: the sum of the field,
    divided by N. *)
Definition field_total (f : Entry -> Q) (records : list Entry) : Q :=
  fold_left (fun acc e => acc + f e) records 0.

Definition arithmetic_mean (f : Entry -> Q) (records : list Entry) : Q :=
  field_total f records / inject_Z (Z.of_nat (length records)).

(** The names of the six fixed metrics. *)
Definition fixed_metrics : gset string :=
  list_to_set (map name metric_table).

(** Ascending by date. *)
Definition date_le (x y : nat * (Z * Q)) : Prop := (x.2.1 <= y.2.1)%Z.

(** The three days of the worked example of the specification, at index
    labels 0, 1, 2 and on three consecutive dates. *)
Definition mk_entry (d : Z) (s hf jf ex w r : Q) : Entry :=
  {| date := d; sleep := s; healthy_food := hf; junk_food := jf;
     exercise := ex; water := w; reading := r; custom := ∅ |}.

Definition day1 : Entry := mk_entry 739000 4 1 3 10 3 5.
Definition day2 : Entry := mk_entry 739001 8 4 0 45 8 30.
Definition day3 : Entry := mk_entry 739002 7 3 1 25 7 10.

Definition example_week : DataFrame :=
  [(0%nat, day1); (1%nat, day2); (2%nat, day3)].

(** A frame whose rows are not in date order, with two rows on one date and
    two rows that tie for the best score. *)
Definition tied_week : DataFrame :=
  [(2%nat, day3); (0%nat, day2); (1%nat, mk_entry 739002 8 4 0 45 8 30);
   (3%nat, day1)].

(** A frame in which two rows carry the same index label, as a
    concatenation without [ignore_index] would produce. *)
Definition relabelled_week : DataFrame :=
  [(0%nat, day1); (1%nat, day2); (1%nat, day3)].

(** [idxmax] returns the label found at the first position that holds the
    maximum of the column. *)
Definition first_max_at (col : Column) (i : nat) (x : nat * Q) : Prop :=
  col !! i = Some x
  /\ (forall j y, col !! j = Some y -> y.2 <= x.2)
  /\ (forall j y, (j < i)%nat -> col !! j = Some y -> y.2 < x.2).

(** The six fixed columns with their accessors. *)
Definition fixed_columns : list (string * (Entry -> Q)) :=
  [("sleep", sleep); ("healthy_food", healthy_food);
   ("junk_food", junk_food); ("exercise", exercise); ("water", water);
   ("reading", reading)].

(** ** The rule tables of the specification *)

#[global] Instance Qlt_decision (x y : Q) : Decision (x < y) :=
  match Qlt_le_dec x y with
  | left H => left H
  | right H => right (Qle_not_lt y x H)
  end.

Inductive side : Type :=
| IsBelow
| IsAbove.

(** One row of a rule table: the average of [rule_metric] is below (or
    above) [rule_threshold]; [rule_message] is appended when that holds. *)
Record rule : Type := {
  rule_metric : string;
  rule_side : side;
  rule_threshold : Q;
  rule_message : string
}.

Definition rule_holds (avg : gmap string Q) (r : rule) : Prop :=
  match avg !! rule_metric r with
  | Some v =>
      match rule_side r with
      | IsBelow => v < rule_threshold r
      | IsAbove => rule_threshold r < v
      end
  | None => False
  end.

#[global] Instance rule_holds_dec (avg : gmap string Q) (r : rule) :
  Decision (rule_holds avg r).
Proof.
  unfold rule_holds. destruct (avg !! rule_metric r); [|apply _].
  destruct (rule_side r); apply _.
Defined.

Definition suggestion_rules : list rule :=
  [ {| rule_metric := "sleep"; rule_side := IsBelow; rule_threshold := 6;
       rule_message := tip_sleep |};
    {| rule_metric := "water"; rule_side := IsBelow; rule_threshold := 6;
       rule_message := tip_water |};
    {| rule_metric := "exercise"; rule_side := IsBelow; rule_threshold := 20;
       rule_message := tip_exercise |};
    {| rule_metric := "healthy_food"; rule_side := IsBelow;
       rule_threshold := 3; rule_message := tip_healthy_food |};
    {| rule_metric := "junk_food"; rule_side := IsAbove; rule_threshold := 1;
       rule_message := tip_junk_food |};
    {| rule_metric := "reading"; rule_side := IsBelow; rule_threshold := 15;
       rule_message := tip_reading |} ].

Definition alert_rules : list rule :=
  [ {| rule_metric := "water"; rule_side := IsBelow; rule_threshold := 5;
       rule_message := alert_water |};
    {| rule_metric := "sleep"; rule_side := IsBelow; rule_threshold := 6;
       rule_message := alert_sleep |};
    {| rule_metric := "exercise"; rule_side := IsBelow; rule_threshold := 15;
       rule_message := alert_exercise |} ].

(** The messages of the rules that hold, in the order of the table. *)
Definition fired (rules : list rule) (avg : gmap string Q) : list string :=
  rule_message <$> filter (rule_holds avg) rules.

(** The fired suggestions, or the single positive message when none fired. *)
Definition or_praise (tips : list string) : list string :=
  match tips with
  | [] => [tip_great_week]
  | _ => tips
  end.

(** The two averages dictionaries of the worked examples. *)
Definition good_averages : gmap string Q :=
  <["sleep" := 8]> (<["water" := 8]> (<["exercise" := 30]>
  (<["healthy_food" := 4]> (<["junk_food" := 0]> (<["reading" := 20]> ∅))))).

Definition poor_averages : gmap string Q :=
  <["sleep" := 5]> (<["water" := 4]> (<["exercise" := 10]>
  (<["healthy_food" := 4]> (<["junk_food" := 0]> (<["reading" := 20]> ∅))))).

(** ** The entry store (app2.py, lines 76-77, 136, 156, 171-173) *)

(** [make_empty_df()] (lines 27-29): the seven columns and no row. *)
Definition make_empty_df : DataFrame := [].

(** The fresh [RangeIndex] that [ignore_index=True] gives to a list of
    rows: the labels 0, 1, ..., n-1 in positional order. *)
Definition reset_index (rows : list Entry) : DataFrame :=
  zip (seq 0 (length rows)) rows.

(** [pd.concat([a, b], ignore_index=True)]: the rows of [a], then the rows
    of [b], relabelled. *)
Definition concat_ignore_index (a b : DataFrame) : DataFrame :=
  reset_index (a.*2 ++ b.*2).

(** What changes [st.session_state.data]: saving the entry of the sidebar
    (line 136, [new] being the row that lines 122-135 build), a successful
    CSV import (line 156, [dfu] being the frame that was read), and the
    clear button (line 172). *)
Inductive store_event : Type :=
| SaveEntry (new : Entry)
| ImportCsv (dfu : DataFrame)
| ClearAll.

Definition store_step (data : DataFrame) (ev : store_event) : DataFrame :=
  match ev with
  | SaveEntry new => concat_ignore_index data (reset_index [new])
  | ImportCsv dfu => concat_ignore_index data dfu
  | ClearAll => make_empty_df
  end.

(** The rows that an event brings into the store. *)
Definition arrivals (ev : store_event) : list Entry :=
  match ev with
  | SaveEntry new => [new]
  | ImportCsv dfu => dfu.*2
  | ClearAll => []
  end.

(** The store of a session: it starts as [make_empty_df()] (line 77). *)
Definition run_store (evs : list store_event) : DataFrame :=
  fold_left store_step evs make_empty_df.

(** ** The panels that call the analytics (app2.py, lines 179-255, 320-334) *)

(** [df.sort_values(key)] on any frame, with the insertion of
    [insert_by_date]. *)
Fixpoint insert_by {A : Type} (key : A -> Z) (x : A) (sorted : list A) : list A :=
  match sorted with
  | [] => [x]
  | y :: rest =>
      if (key x <=? key y)%Z then x :: y :: rest
      else y :: insert_by key x rest
  end.

Definition sort_values {A : Type} (key : A -> Z) (l : list A) : list A :=
  foldr (insert_by key) [] l.


Definition row_date (r : nat * Entry) : Z := date r.2.

(** [df[df["date"] >= today - datetime.timedelta(days=n)]]: the rows of
    the frame that pass the mask, in their order and with their labels.
    [today] stands for [datetime.date.today()]. *)
Definition since (n today : Z) (df : DataFrame) : DataFrame :=
  filter (fun r => (today - n <= row_date r)%Z) df.

(** What the weekly column shows (lines 179-235). *)
Inductive weekly_view : Type :=
| NoDataYet
| NotEnoughData
| WeeklyAnalysis (best : loc_result) (avgs : gmap string Q)
    (tips : list string) (warnings : list string).

Definition weekly_panel (today : Z) (data : DataFrame) : result weekly_view :=
  match data with
  | [] => Return NoDataYet
  | _ =>
      let df := sort_values row_date data in
      let last_7 := since 6 today df in
      analysis ← analyze_week last_7;
      match analysis with
      | None => Return NotEnoughData
      | Some a =>
          let avgs := averages a in
          tips ← suggestions_from_averages avgs;
          warnings ← alerts avgs;
          Return (WeeklyAnalysis (best_day a) avgs tips warnings)
      end
  end.

(** What the composite chart plots (lines 242-255): the dates and scores of
    the rows of the last 30 days, in the order of the store. *)
Inductive chart_view : Type :=
| NoChart
| NoRecentData
| ScoreChart (points : ScoreFrame).

Definition composite_chart (today : Z) (data : DataFrame) : chart_view :=
  match data with
  | [] => NoChart
  | _ =>
      match since 29 today data with
      | [] => NoRecentData
      | last_30 => ScoreChart (date_score last_30)
      end
  end.





(** A row whose six fixed fields are non-negative. *)
Definition nonnegative_entry (e : Entry) : Prop :=
  0 <= sleep e /\ 0 <= healthy_food e /\ 0 <= junk_food e
  /\ 0 <= exercise e /\ 0 <= water e /\ 0 <= reading e.

(** A session: three saves and one import, two rows on the same date. *)
Definition example_session : list store_event :=
  [SaveEntry day1; SaveEntry day2; ImportCsv [(7%nat, day3)];
   SaveEntry (mk_entry 739001 8 4 0 45 8 30)].

(** The row [e] with other custom habit values. *)
Definition with_custom (e : Entry) (c : gmap string Q) : Entry :=
  {| date := date e; sleep := sleep e; healthy_food := healthy_food e;
     junk_food := junk_food e; exercise := exercise e; water := water e;
     reading := reading e; custom := c |}.

(** A row with custom habits. *)
Definition day2_with_habits : Entry :=
  with_custom day2 (<["Meditation" := 20]> (<["Pushups" := 35]> ∅)).


(** * Properties *)

(** ** Numbers *)

Lemma Qltb_spec (x y : Q) : reflect (x < y) (Qltb x y).
Proof.
  unfold Qltb. destruct (Qle_bool y x) eqn:E; simpl; constructor.
  - apply Qle_bool_iff in E. lra.
  - apply Qnot_le_lt. intros H. apply Qle_bool_iff in H. congruence.
Qed.

Lemma Qltb_true (x y : Q) : Qltb x y = true <-> x < y.
Proof. destruct (Qltb_spec x y); split; (congruence || tauto). Qed.

Lemma Qltb_false (x y : Q) : Qltb x y = false <-> y <= x.
Proof.
  destruct (Qltb_spec x y) as [H|H]; split; intros H'; try congruence; try lra.
Qed.

Lemma py_min_cases (a b : Q) :
  (b < a /\ py_min a b = b) \/ (a <= b /\ py_min a b = a).
Proof.
  unfold py_min. destruct (Qltb_spec b a) as [H|H]; [left | right]; split; auto.
  apply Qnot_lt_le, H.
Qed.

Lemma py_min_Qmin (a b : Q) : py_min a b == Qmin a b.
Proof.
  destruct (py_min_cases a b) as [[H ->]|[H ->]].
  - symmetry. apply Q.min_r. lra.
  - symmetry. apply Q.min_l. exact H.
Qed.

#[global] Instance py_min_proper : Proper (Qeq ==> Qeq ==> Qeq) py_min.
Proof.
  intros a a' Ha b b' Hb.
  destruct (py_min_cases a b) as [[H ->]|[H ->]];
    destruct (py_min_cases a' b') as [[H' ->]|[H' ->]]; lra.
Qed.

(** One clamped term [min(v / c, 1.0)] for a positive cap [c]. *)
Section Clamp.
Variable c : Q.
Hypothesis c_pos : 0 < c.

Lemma unit_cap : c / c == 1.
Proof. field. lra. Qed.

Lemma div_le (v v' : Q) : v <= v' -> v / c <= v' / c.
Proof.
  intros H. unfold Qdiv. apply Qmult_le_compat_r; [exact H|].
  apply Qlt_le_weak, Qinv_lt_0_compat, c_pos.
Qed.

Lemma div_lt (v v' : Q) : v < v' -> v / c < v' / c.
Proof.
  intros H. unfold Qdiv. apply Qmult_lt_compat_r; [|exact H].
  apply Qinv_lt_0_compat, c_pos.
Qed.

Lemma clamp_saturated (v : Q) : c <= v -> py_min (v / c) 1.0 == 1.
Proof.
  intros H. pose proof (div_le _ _ H) as H1. rewrite unit_cap in H1.
  destruct (py_min_cases (v / c) 1.0) as [[_ ->]|[H2 ->]]; lra.
Qed.

Lemma clamp_below (v : Q) : v <= c -> py_min (v / c) 1.0 == v / c.
Proof.
  intros H. pose proof (div_le _ _ H) as H1. rewrite unit_cap in H1.
  destruct (py_min_cases (v / c) 1.0) as [[H2 ->]|[_ ->]]; lra.
Qed.

Lemma clamp_range (v : Q) : 0 <= v -> 0 <= py_min (v / c) 1.0 <= 1.
Proof.
  intros H. pose proof (div_le _ _ H) as H1.
  assert (0 / c == 0) as E by (field; lra). rewrite E in H1.
  destruct (py_min_cases (v / c) 1.0) as [[H2 ->]|[H2 ->]]; lra.
Qed.


Lemma clamp_zero (v : Q) : 0 <= v -> (py_min (v / c) 1.0 == 0 <-> v == 0).
Proof.
  intros H. split; intros E.
  - destruct (py_min_cases (v / c) 1.0) as [[H3 E']|[H3 E']];
      rewrite E' in E; [lra|].
    assert (v == (v / c) * c) as -> by (field; lra). rewrite E. ring.
  - rewrite E. assert (0 / c == 0) as -> by (field; lra).
    destruct (py_min_cases 0 1.0) as [[H3 ->]|[H3 ->]]; lra.
Qed.
End Clamp.

(** ** Rows *)

Lemma get_insert (row : Series) (k k' : string) (x d : Q) :
  get (<[k := x]> row) k' d = if decide (k = k') then x else get row k' d.
Proof. unfold get. rewrite lookup_insert. by case_decide. Qed.

Lemma get_field_or_zero (row : Series) (k : string) :
  get row k 0 = field_or_zero row k.
Proof. unfold get, field_or_zero. by destruct (row !! k). Qed.

Lemma composite_score_unfold (row : Series) :
  composite_score row =
  score_of (get row "sleep" 0) (get row "healthy_food" 0)
    (get row "junk_food" 0) (get row "exercise" 0) (get row "water" 0)
    (get row "reading" 0).
Proof. reflexivity. Qed.

Ltac in_table := unfold metric_table; repeat constructor.

(** A statement about all six metrics is a statement about each of them. *)
Lemma metric_table_forall (P : metric -> Prop) :
  (forall m, m ∈ metric_table -> P m) <->
  P m_sleep /\ P m_healthy_food /\ P m_junk_food /\ P m_exercise
  /\ P m_water /\ P m_reading.
Proof.
  unfold metric_table. split.
  - intros H. repeat split; apply H; in_table.
  - intros (H1 & H2 & H3 & H4 & H5 & H6) m Hm.
    repeat (apply elem_of_cons in Hm as [->|Hm]; [assumption|]).
    by apply elem_of_nil in Hm.
Qed.

Ltac insert_gets :=
  rewrite ?get_insert;
  repeat (case_decide; try discriminate); try congruence.

(** ** Scoring engine *)

Lemma score_of_formula (row : Series) :
  composite_score row == weighted_formula row.
Proof.
  rewrite composite_score_unfold. unfold weighted_formula, metric_table.
  cbv [foldr contribution normalized dir weight cap name m_sleep
         m_healthy_food m_junk_food m_exercise m_water m_reading].
  rewrite <- !get_field_or_zero. unfold score_of.
  rewrite <- !py_min_Qmin.
  ring.
Qed.

Lemma metric_table_cases (m : metric) :
  m ∈ metric_table ->
  m = m_sleep \/ m = m_healthy_food \/ m = m_junk_food \/ m = m_exercise
  \/ m = m_water \/ m = m_reading.
Proof.
  intros Hm. revert m Hm. apply metric_table_forall. tauto.
Qed.

Lemma caps_positive (m : metric) : m ∈ metric_table -> 0 < cap m.
Proof. revert m. apply metric_table_forall. repeat split. Qed.

Lemma get_insert_absent (row : Series) (k k' : string) :
  row !! k = None -> get (<[k := 0]> row) k' 0 = get row k' 0.
Proof.
  intros H. rewrite get_insert. case_decide as E; [|reflexivity].
  subst k'. unfold get. by rewrite H.
Qed.

Lemma contribution_saturated (row : Series) (m : metric) (x : Q) :
  m ∈ metric_table -> cap m <= x ->
  contribution m (<[name m := x]> row) == saturated m.
Proof.
  intros Hm Hx. pose proof (caps_positive m Hm) as Hc.
  unfold contribution, normalized, saturated.
  rewrite <- get_field_or_zero, get_insert, decide_True by reflexivity.
  destruct (dir m);
    rewrite <- py_min_Qmin, (clamp_saturated (cap m) Hc x Hx); ring.
Qed.

Lemma score_saturated (row : Series) (m : metric) (x : Q) :
  m ∈ metric_table -> cap m <= x ->
  composite_score (<[name m := x]> row) ==
  composite_score (<[name m := 0]> row) + saturation_step m.
Proof.
  intros Hm Hx. pose proof (caps_positive m Hm) as Hc.
  pose proof (clamp_saturated (cap m) Hc x Hx) as Hsat.
  pose proof (proj2 (clamp_zero (cap m) Hc 0 ltac:(lra)) ltac:(reflexivity))
    as Hzero.
  rewrite !composite_score_unfold.
  destruct (metric_table_cases m Hm) as [->|[->|[->|[->|[->| ->]]]]];
    cbn [name cap dir weight m_sleep m_healthy_food m_junk_food m_exercise
         m_water m_reading saturation_step] in *;
    insert_gets; unfold score_of; lra.
Qed.

(** C1. [composite_score] is the fixed weighted formula of the scoring
    table: the sum over the six metrics of weight times [min(value/cap, 1.0)]
    (inverted for [junk_food]).  A field that is absent from the row counts
    as 0: setting it to 0 explicitly leaves the score unchanged.  A field at
    or above its cap contributes exactly its full weight, or exactly zero for
    [junk_food]; on the score itself, it adds exactly that weight to (or, for
    [junk_food], removes it from) the score of the row where the field is 0. *)
Theorem composite_score_weighted_formula (row : Series) :
  composite_score row == weighted_formula row
  /\ (forall k, row !! k = None ->
        composite_score (<[k := 0]> row) == composite_score row)
  /\ (forall m x, m ∈ metric_table -> cap m <= x ->
        contribution m (<[name m := x]> row) == saturated m
        /\ score_with row m x == score_with row m 0 + saturation_step m).
Proof.
  split; [apply score_of_formula|]. split.
  - intros k Hk. rewrite !composite_score_unfold.
    rewrite !(get_insert_absent row k) by exact Hk. reflexivity.
  - intros m x Hm Hx. split.
    + by apply contribution_saturated.
    + by apply score_saturated.
Qed.

Lemma composite_score_weighted_formula_witness :
  composite_score (<["water" := 0]> sparse_row) == composite_score sparse_row
  /\ contribution m_exercise (<["exercise" := 75]> sparse_row) == 0.2
  /\ contribution m_junk_food (<["junk_food" := 5]> sparse_row) == 0
  /\ score_with sparse_row m_exercise 75 ==
     score_with sparse_row m_exercise 0 + 0.2.
Proof.
  destruct (composite_score_weighted_formula sparse_row) as (_ & Habs & Hsat).
  assert (m_exercise ∈ metric_table) as Mex by in_table.
  assert (m_junk_food ∈ metric_table) as Mjunk
    by in_table.
  assert (cap m_exercise <= 75) as Cex by (vm_compute; discriminate).
  assert (cap m_junk_food <= 5) as Cjunk by (vm_compute; discriminate).
  pose proof (Hsat m_exercise 75 Mex Cex) as [Hex Hstep].
  pose proof (Hsat m_junk_food 5 Mjunk Cjunk) as [Hjunk _].
  split; [apply Habs; reflexivity|].
  split; [exact Hex|]. split; [exact Hjunk | exact Hstep].
Defined.

(** C2. Bounds: when the six fixed fields of a row are all non-negative
    (an absent field counting as 0), the score lies in [0, 1]. *)
Theorem composite_score_bounds (row : Series) :
  (forall m, m ∈ metric_table -> 0 <= get row (name m) 0) ->
  0 <= composite_score row <= 1.
Proof.
  intros H. apply metric_table_forall in H.
  cbn [name m_sleep m_healthy_food m_junk_food m_exercise m_water m_reading]
    in H.
  destruct H as (H1 & H2 & H3 & H4 & H5 & H6).
  rewrite composite_score_unfold. unfold score_of.
  pose proof (clamp_range 9.0 ltac:(reflexivity) _ H1).
  pose proof (clamp_range 5.0 ltac:(reflexivity) _ H2).
  pose proof (clamp_range 5.0 ltac:(reflexivity) _ H3).
  pose proof (clamp_range 60.0 ltac:(reflexivity) _ H4).
  pose proof (clamp_range 8.0 ltac:(reflexivity) _ H5).
  pose proof (clamp_range 60.0 ltac:(reflexivity) _ H6).
  lra.
Qed.

Lemma composite_score_bounds_witness :
  0 <= composite_score day2_row <= 1.
Proof.
  apply (composite_score_bounds day2_row).
  apply metric_table_forall. repeat split; vm_compute; discriminate.
Defined.



(** C10, as stated, fails on rows with a negative field: [negative_row] has
    [sleep = -9], [healthy_food = 5] and [junk_food = 5], its score is 0,
    yet two of its higher-is-better fields are not 0. *)
Lemma zero_score_with_nonzero_fields :
  ~ (forall row : Series,
       composite_score row == 0 ->
       5 <= get row "junk_food" 0
       /\ forall m, m ∈ metric_table -> dir m = HigherBetter ->
                    get row (name m) 0 == 0).
Proof.
  intros H. destruct (H negative_row) as [_ Hz]; [vm_compute; reflexivity|].
  specialize (Hz m_sleep). revert Hz. vm_compute. intros Hz.
  specialize (Hz ltac:(in_table) eq_refl).
  discriminate Hz.
Qed.

(** C10, amended.  A row whose six fixed fields are all 0 (absent fields
    included, so the empty row too) scores exactly 0.12, the full weight of
    the inverted [junk_food] term.  A row whose fixed fields are
    non-negative scores 0 exactly when [junk_food] is at or above its cap
    of 5 and the five higher-is-better fields are 0. *)
Theorem composite_score_floor (row : Series) :
  ((forall m, m ∈ metric_table -> get row (name m) 0 == 0) ->
   composite_score row == 0.12)
  /\ ((forall m, m ∈ metric_table -> 0 <= get row (name m) 0) ->
      (composite_score row == 0 <->
       5 <= get row "junk_food" 0
       /\ forall m, m ∈ metric_table -> dir m = HigherBetter ->
                    get row (name m) 0 == 0)).
Proof.
  split.
  - intros H. apply metric_table_forall in H.
    cbn [name m_sleep m_healthy_food m_junk_food m_exercise m_water m_reading]
      in H.
    destruct H as (H1 & H2 & H3 & H4 & H5 & H6).
    rewrite composite_score_unfold. unfold score_of.
    rewrite H1, H2, H3, H4, H5, H6. vm_compute. reflexivity.
  - intros H. apply metric_table_forall in H.
    cbn [name m_sleep m_healthy_food m_junk_food m_exercise m_water m_reading]
      in H.
    destruct H as (H1 & H2 & H3 & H4 & H5 & H6).
    rewrite composite_score_unfold. unfold score_of.
    pose proof (clamp_range 9.0 ltac:(reflexivity) _ H1).
    pose proof (clamp_range 5.0 ltac:(reflexivity) _ H2).
    pose proof (clamp_range 5.0 ltac:(reflexivity) _ H3).
    pose proof (clamp_range 60.0 ltac:(reflexivity) _ H4).
    pose proof (clamp_range 8.0 ltac:(reflexivity) _ H5).
    pose proof (clamp_range 60.0 ltac:(reflexivity) _ H6).
    pose proof (clamp_zero 9.0 ltac:(reflexivity) _ H1) as Z1.
    pose proof (clamp_zero 5.0 ltac:(reflexivity) _ H2) as Z2.
    pose proof (clamp_zero 60.0 ltac:(reflexivity) _ H4) as Z4.
    pose proof (clamp_zero 8.0 ltac:(reflexivity) _ H5) as Z5.
    pose proof (clamp_zero 60.0 ltac:(reflexivity) _ H6) as Z6.
    split.
    + intros E.
      assert (py_min (get row "junk_food" 0 / 5.0) 1.0 == 1) as J by lra.
      split.
      * destruct (Qlt_le_dec (get row "junk_food" 0) 5.0) as [Hlt|Hge];
          [|lra].
        pose proof (clamp_below 5.0 ltac:(reflexivity) _
                      (Qlt_le_weak _ _ Hlt)) as Hb.
        pose proof (div_lt 5.0 ltac:(reflexivity) _ _ Hlt) as Hd.
        pose proof (unit_cap 5.0 ltac:(reflexivity)) as Hu.
        lra.
      * apply (metric_table_forall
                 (fun m => dir m = HigherBetter -> get row (name m) 0 == 0)).
        cbn [name dir m_sleep m_healthy_food m_junk_food m_exercise m_water
             m_reading].
        repeat split; intros Hdir; try discriminate Hdir;
          first [apply Z1 | apply Z2 | apply Z4 | apply Z5 | apply Z6]; lra.
    + intros [J Hz]. apply metric_table_forall in Hz.
      cbn [name dir m_sleep m_healthy_food m_junk_food m_exercise m_water
           m_reading] in Hz.
      destruct Hz as (E1 & E2 & _ & E4 & E5 & E6).
      apply Z1 in E1; [|reflexivity]. apply Z2 in E2; [|reflexivity].
      apply Z4 in E4; [|reflexivity]. apply Z5 in E5; [|reflexivity].
      apply Z6 in E6; [|reflexivity].
      pose proof (clamp_saturated 5.0 ltac:(reflexivity)
                    (get row "junk_food" 0) ltac:(lra)). lra.
Qed.

Lemma composite_score_floor_witness :
  composite_score ∅ == 0.12 /\ composite_score junk_only_row == 0.
Proof.
  split.
  - apply (composite_score_floor ∅).
    apply metric_table_forall. repeat split.
  - apply (composite_score_floor junk_only_row).
    + apply metric_table_forall. repeat split; vm_compute; discriminate.
    + split; [vm_compute; discriminate|].
      apply (metric_table_forall
               (fun m => dir m = HigherBetter ->
                         get junk_only_row (name m) 0 == 0)).
      repeat split; intros Hdir; try discriminate Hdir; reflexivity.
Defined.

(** ** Frames *)

Lemma idxmax_from_first_max (rest : Column) (best : nat * Q) :
  exists i x, first_max_at (best :: rest) i x
              /\ idxmax_from best rest = x.1.
Proof.
  revert best. induction rest as [|y rest IH]; intros best.
  - exists 0%nat, best. repeat split.
    + intros [|j] z Hz; simplify_eq/=. lra.
    + intros j z Hj. lia.
  - cbn [idxmax_from]. destruct (Qltb_spec best.2 y.2) as [Hlt|Hge].
    + destruct (IH y) as (i & x & (Hi & Hmax & Hfirst) & Hres).
      exists (S i), x. repeat split; [exact Hi | | | exact Hres].
      * intros [|j] z Hz; simplify_eq/=.
        -- pose proof (Hmax 0%nat y eq_refl). lra.
        -- by apply (Hmax j).
      * intros [|j] z Hj Hz; simplify_eq/=.
        -- pose proof (Hmax 0%nat y eq_refl). lra.
        -- apply (Hfirst j); [lia | done].
    + apply Qnot_lt_le in Hge.
      destruct (IH best) as (i & x & (Hi & Hmax & Hfirst) & Hres).
      destruct i as [|i].
      * simplify_eq/=. exists 0%nat, x. repeat split; [ | | exact Hres].
        -- intros [|[|j]] z Hz; simplify_eq/=; try lra.
           by apply (Hmax (S j)).
        -- intros j z Hj. lia.
      * pose proof (Hfirst 0%nat best ltac:(lia) eq_refl) as Hb.
        exists (S (S i)), x. repeat split; [exact Hi | | | exact Hres].
        -- intros [|[|j]] z Hz; simplify_eq/=; try lra.
           by apply (Hmax (S j)).
        -- intros [|[|j]] z Hj Hz; simplify_eq/=; try lra.
           apply (Hfirst (S j)); [lia | done].
Qed.

Lemma idxmax_first_max (col : Column) :
  col <> [] ->
  exists i x, first_max_at col i x /\ idxmax col = Return x.1.
Proof.
  destruct col as [|best rest]; [done|]. intros _.
  destruct (idxmax_from_first_max rest best) as (i & x & H & E).
  exists i, x. split; [exact H|]. cbn. by rewrite E.
Qed.

(** [loc] on a label of the index finds the rows that carry it. *)
Lemma loc_date_label (df : DataFrame) (i : nat) (r : nat * Entry) :
  df !! i = Some r -> exists d, loc_date df r.1 = Return d.
Proof.
  intros Hi. unfold loc_date.
  assert (r ∈ filter (fun r' : nat * Entry => r'.1 = r.1) df) as Hin.
  { apply list_elem_of_filter. split; [done|].
    apply list_elem_of_lookup. eauto. }
  destruct (filter _ df) as [|a [|b l]]; [|eauto..].
  by apply elem_of_nil in Hin.
Qed.




Lemma apply_rows_lookup (f : Series -> Q) (df : DataFrame) (i : nat) :
  apply_rows f df !! i = (fun r => (r.1, f (row_series r.2))) <$> df !! i.
Proof. unfold apply_rows. apply list_lookup_fmap. Qed.

(** A non-empty frame is analyzed without an exception, and the analysis
    has the three components that the source computes. *)
Lemma analyze_week_returns (df : DataFrame) :
  df <> [] ->
  exists i r d,
    df !! i = Some r
    /\ first_max_at (apply_rows composite_score df) i (r.1, entry_score r.2)
    /\ loc_date df r.1 = Return d
    /\ analyze_week df =
       Return (Some {| best_day := d;
                       averages := mean_to_dict df;
                       scores := sort_values_date (date_score df) |}).
Proof.
  intros Hne.
  destruct (idxmax_first_max (apply_rows composite_score df))
    as (i & x & Hfm & Hidx).
  { destruct df; [done|]. discriminate. }
  pose proof Hfm as (Hi & _ & _). rewrite apply_rows_lookup in Hi.
  destruct (df !! i) as [r|] eqn:Hr; simplify_eq/=.
  destruct (loc_date_label df i r Hr) as [d Hd].
  exists i, r, d. repeat split; try done; try apply Hfm.
  destruct df as [|r0 df']; [done|].
  unfold analyze_week. rewrite Hidx. cbn. rewrite Hd. reflexivity.
Qed.

Lemma fold_left_total (f : Entry -> Q) (records : list Entry) (acc : Q) :
  fold_left (fun a e => a + f e) records acc ==
  acc + foldr Qplus 0 (map f records).
Proof.
  revert acc. induction records as [|e records IH]; intros acc; cbn.
  - ring.
  - rewrite IH. ring.
Qed.

Lemma mean_arithmetic_mean (f : Entry -> Q) (df : DataFrame) :
  mean (column f df) == arithmetic_mean f df.*2.
Proof.
  unfold mean, arithmetic_mean, field_total, column, sum_column.
  rewrite fold_left_total, length_map, length_fmap.
  rewrite <- list_fmap_compose.
  change (map (fun r : nat * Entry => f r.2) df) with ((f ∘ snd) <$> df).
  apply Qdiv_comp; [ring | reflexivity].
Qed.

Lemma mean_to_dict_dom (df : DataFrame) :
  dom (mean_to_dict df) = fixed_metrics.
Proof.
  unfold mean_to_dict, fixed_metrics. rewrite !dom_insert_L, dom_empty_L.
  cbn. set_solver.
Qed.

Lemma mean_to_dict_lookup (df : DataFrame) (k : string) (f : Entry -> Q) :
  (k, f) ∈ fixed_columns ->
  mean_to_dict df !! k = Some (mean (column f df)).
Proof.
  unfold fixed_columns. intros H.
  repeat (apply elem_of_cons in H as [H|H]; [by simplify_eq|]).
  by apply elem_of_nil in H.
Qed.

(** Sorting. *)
Lemma insert_by_date_perm (x : nat * (Z * Q)) (l : ScoreFrame) :
  insert_by_date x l ≡ₚ x :: l.
Proof.
  induction l as [|y l IH]; cbn; [done|].
  destruct (x.2.1 <=? y.2.1)%Z; [done|].
  rewrite IH. apply Permutation_swap.
Qed.

Lemma sort_values_date_perm (l : ScoreFrame) : sort_values_date l ≡ₚ l.
Proof.
  induction l as [|x l IH]; cbn; [done|].
  rewrite insert_by_date_perm. by rewrite IH.
Qed.

Lemma insert_by_date_sorted (x : nat * (Z * Q)) (l : ScoreFrame) :
  StronglySorted date_le l -> StronglySorted date_le (insert_by_date x l).
Proof.
  induction 1 as [|y l Hs IH Hall]; cbn.
  - repeat constructor.
  - destruct (Z.leb_spec x.2.1 y.2.1) as [Hle|Hgt].
    + constructor; [by constructor|].
      constructor; [exact Hle|].
      eapply Forall_impl; [exact Hall|]. unfold date_le. intros z Hz. lia.
    + constructor; [exact IH|].
      rewrite (insert_by_date_perm x l). constructor; [|exact Hall].
      unfold date_le. lia.
Qed.

Lemma sort_values_date_sorted (l : ScoreFrame) :
  StronglySorted date_le (sort_values_date l).
Proof.
  induction l as [|x l IH]; cbn; [constructor|].
  by apply insert_by_date_sorted.
Qed.

(** ** Window analyzer *)

(** C4. Empty analysis: on the empty frame [analyze_week] returns [None],
    the "no data" signal: no exception and no summary.  The empty frame is
    the only such input: on every frame with at least one row it returns a
    summary. *)
Theorem analyze_week_empty :
  analyze_week [] = Return None
  /\ forall (r : nat * Entry) (df : DataFrame),
       exists s, analyze_week (r :: df) = Return (Some s).
Proof.
  split; [reflexivity|]. intros r df.
  destruct (analyze_week_returns (r :: df)) as (i & r' & d & _ & _ & _ & E);
    [discriminate|].
  eauto.
Qed.



(** Under a repeated label [loc] returns the dates of all the rows that
    carry it. *)
Example relabelled_week_best_day :
  fmap (M := result) (fmap (M := option) best_day)
    (analyze_week relabelled_week)
  = Return (Some (SubColumn [739001%Z; 739002%Z])).
Proof. vm_compute. reflexivity. Qed.

(** On the frame with two maximal rows, the date of the first one. *)
Example tied_week_best_day :
  fmap (M := result) (fmap (M := option) best_day) (analyze_week tied_week)
  = Return (Some (Scalar 739001)).
Proof. vm_compute. reflexivity. Qed.

(** C6. Averages: on a non-empty frame of N rows, the [averages] dictionary
    has exactly the six fixed metrics as its keys (no custom habit appears
    in it), and the value under each of them is the arithmetic mean of that
    field over the N rows: its sum divided by N. *)
Theorem averages_arithmetic_mean (df : DataFrame) :
  df <> [] ->
  exists s,
    analyze_week df = Return (Some s)
    /\ dom (averages s) = fixed_metrics
    /\ forall k f, (k, f) ∈ fixed_columns ->
         exists v, averages s !! k = Some v
                   /\ v == arithmetic_mean f df.*2.
Proof.
  intros Hne.
  destruct (analyze_week_returns df Hne) as (i & r & d & _ & _ & _ & E).
  eexists. split; [exact E|]. cbn [averages]. split.
  - apply mean_to_dict_dom.
  - intros k f Hk. exists (mean (column f df)). split.
    + by apply mean_to_dict_lookup.
    + apply mean_arithmetic_mean.
Qed.

Lemma averages_arithmetic_mean_witness :
  exists s,
    analyze_week example_week = Return (Some s)
    /\ dom (averages s) = fixed_metrics
    /\ forall k f, (k, f) ∈ fixed_columns ->
         exists v, averages s !! k = Some v
                   /\ v == arithmetic_mean f example_week.*2.
Proof. apply (averages_arithmetic_mean example_week). discriminate. Defined.

(** The averages of the worked example: sleep 19/3, water 6, exercise 80/3,
    healthy food 8/3, junk food 4/3, reading 15. *)
Example example_week_averages :
  arithmetic_mean sleep example_week.*2 == 19 # 3
  /\ arithmetic_mean water example_week.*2 == 6
  /\ arithmetic_mean exercise example_week.*2 == 80 # 3
  /\ arithmetic_mean healthy_food example_week.*2 == 8 # 3
  /\ arithmetic_mean junk_food example_week.*2 == 4 # 3
  /\ arithmetic_mean reading example_week.*2 == 15.
Proof. repeat split. Qed.

(** C7. Score series: on a non-empty frame, [scores] holds exactly one
    (date, score) row per input row, the score being the composite score of
    that row: it is a rearrangement of the input rows, of the same length,
    so rows that share a date stay separate.  It is in ascending order of
    date. *)
Theorem scores_sorted_by_date (df : DataFrame) :
  df <> [] ->
  exists s,
    analyze_week df = Return (Some s)
    /\ scores s ≡ₚ (fun r => (r.1, (date r.2, entry_score r.2))) <$> df
    /\ length (scores s) = length df
    /\ StronglySorted date_le (scores s).
Proof.
  intros Hne.
  destruct (analyze_week_returns df Hne) as (i & r & d & _ & _ & _ & E).
  eexists. split; [exact E|]. cbn [scores].
  pose proof (sort_values_date_perm (date_score df)) as Hp.
  split; [exact Hp|]. split.
  - rewrite Hp. unfold date_score. apply length_map.
  - apply sort_values_date_sorted.
Qed.

Lemma scores_sorted_by_date_witness :
  exists s,
    analyze_week tied_week = Return (Some s)
    /\ scores s ≡ₚ (fun r => (r.1, (date r.2, entry_score r.2))) <$> tied_week
    /\ length (scores s) = length tied_week
    /\ StronglySorted date_le (scores s).
Proof. apply (scores_sorted_by_date tied_week). discriminate. Defined.

(** On the frame with a repeated date: four rows come back, by date, the
    two rows of the repeated date both present; the scores are not in
    ascending order. *)
Example tied_week_scores :
  fmap (M := result) (fmap (M := option)
    (fun s => (fun x : nat * (Z * Q) => (x.1, x.2.1, Qred x.2.2)) <$> scores s))
    (analyze_week tied_week)
  = Return (Some [(3%nat, 739000%Z, 203 # 750); (0%nat, 739001%Z, 407 # 500);
                  (2%nat, 739002%Z, 297 # 500); (1%nat, 739002%Z, 407 # 500)]).
Proof. vm_compute. reflexivity. Qed.

(** ** Advisory engine *)

Lemma fired_cons (r : rule) (rules : list rule) (avg : gmap string Q) :
  fired (r :: rules) avg = fired [r] avg ++ fired rules avg.
Proof.
  unfold fired. rewrite !filter_cons, filter_nil.
  destruct (decide (rule_holds avg r)); reflexivity.
Qed.

Lemma append_if_below (avg : gmap string Q) (k msg : string) (v t : Q)
    (tips : list string) :
  avg !! k = Some v ->
  append_if (Qltb v t) msg tips =
  tips ++ fired [ {| rule_metric := k; rule_side := IsBelow;
                     rule_threshold := t; rule_message := msg |} ] avg.
Proof.
  intros Hk. unfold fired, append_if. rewrite filter_cons, filter_nil.
  destruct (Qltb_spec v t) as [H|H].
  - rewrite decide_True; [reflexivity|]. unfold rule_holds; cbn. by rewrite Hk.
  - rewrite decide_False; [by rewrite app_nil_r|].
    unfold rule_holds; cbn. by rewrite Hk.
Qed.

Lemma append_if_above (avg : gmap string Q) (k msg : string) (v t : Q)
    (tips : list string) :
  avg !! k = Some v ->
  append_if (Qltb t v) msg tips =
  tips ++ fired [ {| rule_metric := k; rule_side := IsAbove;
                     rule_threshold := t; rule_message := msg |} ] avg.
Proof.
  intros Hk. unfold fired, append_if. rewrite filter_cons, filter_nil.
  destruct (Qltb_spec t v) as [H|H].
  - rewrite decide_True; [reflexivity|]. unfold rule_holds; cbn. by rewrite Hk.
  - rewrite decide_False; [by rewrite app_nil_r|].
    unfold rule_holds; cbn. by rewrite Hk.
Qed.

Lemma append_if_empty (tips : list string) :
  append_if (py_not tips) tip_great_week tips = or_praise tips.
Proof. by destruct tips. Qed.

Lemma subscript_present (d : gmap string Q) (k : string) (v : Q) :
  d !! k = Some v -> subscript d k = Return v.
Proof. intros H. unfold subscript. by rewrite H. Qed.

Lemma fixed_metrics_present (avg : gmap string Q) :
  (forall k, k ∈ fixed_metrics -> is_Some (avg !! k)) ->
  exists s hf jf ex w r,
    avg !! "sleep" = Some s /\ avg !! "healthy_food" = Some hf
    /\ avg !! "junk_food" = Some jf /\ avg !! "exercise" = Some ex
    /\ avg !! "water" = Some w /\ avg !! "reading" = Some r.
Proof.
  intros H.
  assert (forall k, k ∈ map name metric_table -> is_Some (avg !! k)) as H'.
  { intros k Hk. apply H. unfold fixed_metrics. by apply elem_of_list_to_set. }
  cbn in H'.
  destruct (H' "sleep") as [s Hs]; [repeat constructor|].
  destruct (H' "healthy_food") as [hf Hhf]; [repeat constructor|].
  destruct (H' "junk_food") as [jf Hjf]; [repeat constructor|].
  destruct (H' "exercise") as [ex Hex]; [repeat constructor|].
  destruct (H' "water") as [w Hw]; [repeat constructor|].
  destruct (H' "reading") as [r Hr]; [repeat constructor|].
  exists s, hf, jf, ex, w, r. done.
Qed.

Lemma suggestions_fired (avg : gmap string Q) :
  (forall k, k ∈ fixed_metrics -> is_Some (avg !! k)) ->
  suggestions_from_averages avg =
    Return (or_praise (fired suggestion_rules avg))
  /\ exists tip tips, suggestions_from_averages avg = Return (tip :: tips).
Proof.
  intros H.
  destruct (fixed_metrics_present avg H)
    as (s & hf & jf & ex & w & r & Hs & Hhf & Hjf & Hex & Hw & Hr).
  assert (suggestions_from_averages avg =
          Return (or_praise (fired suggestion_rules avg))) as E.
  { unfold suggestions_from_averages.
    rewrite (subscript_present avg _ _ Hs), (subscript_present avg _ _ Hw),
      (subscript_present avg _ _ Hex), (subscript_present avg _ _ Hhf),
      (subscript_present avg _ _ Hjf), (subscript_present avg _ _ Hr).
    cbn [mbind result_bind].
    rewrite append_if_empty.
    rewrite (append_if_below avg _ _ _ _ _ Hr),
      (append_if_above avg _ _ _ _ _ Hjf),
      (append_if_below avg _ _ _ _ _ Hhf),
      (append_if_below avg _ _ _ _ _ Hex),
      (append_if_below avg _ _ _ _ _ Hw),
      (append_if_below avg _ _ _ _ _ Hs).
    unfold suggestion_rules.
    rewrite !(fired_cons _ (_ :: _)). rewrite <- !app_assoc.
    rewrite app_nil_l. reflexivity. }
  split; [exact E|]. rewrite E. unfold or_praise.
  destruct (fired suggestion_rules avg) as [|tip tips]; eauto.
Qed.


(** C8. Suggestions: on an averages dictionary that holds the six fixed
    metrics, [suggestions_from_averages] returns the messages of the rules
    of the table [sleep < 6], [water < 6], [exercise < 20],
    [healthy_food < 3], [junk_food > 1], [reading < 15] that hold, each rule
    on its own, in the order of the table; when no rule holds it returns
    the single positive message.  The returned list is never empty. *)
Theorem suggestions_rule_table (avg : gmap string Q) :
  (forall k, k ∈ fixed_metrics -> is_Some (avg !! k)) ->
  suggestions_from_averages avg =
    Return (or_praise (fired suggestion_rules avg))
  /\ exists tip tips, suggestions_from_averages avg = Return (tip :: tips).
Proof. apply suggestions_fired. Qed.

Lemma suggestions_rule_table_witness :
  suggestions_from_averages poor_averages =
    Return (or_praise (fired suggestion_rules poor_averages))
  /\ exists tip tips,
       suggestions_from_averages poor_averages = Return (tip :: tips).
Proof.
  apply (suggestions_rule_table poor_averages).
  intros k Hk. apply elem_of_dom. revert k Hk. apply elem_of_subseteq.
  apply (bool_decide_unpack _). vm_compute. reflexivity.
Defined.

(** Suggestions totality on the two dictionaries of the specification. *)
Example suggestions_good_averages :
  suggestions_from_averages good_averages = Return [tip_great_week].
Proof. vm_compute. reflexivity. Qed.

Example suggestions_poor_averages :
  suggestions_from_averages poor_averages =
  Return [tip_sleep; tip_water; tip_exercise].
Proof. vm_compute. reflexivity. Qed.

Lemma filter_none_hold (rules : list rule) (avg : gmap string Q) :
  (forall r, r ∈ rules -> ~ rule_holds avg r) -> fired rules avg = [].
Proof.
  intros H. unfold fired.
  induction rules as [|r rules IH]; [done|].
  rewrite filter_cons, decide_False by (apply H; left).
  apply IH. intros r' Hr'. apply H. by right.
Qed.

(** C9. Alerts: on an averages dictionary that holds the six fixed metrics,
    the alert block returns the messages of the rules [water < 5],
    [sleep < 6], [exercise < 15] that hold, in that order.  When none of the
    three holds the list of alerts is empty, while the list of suggestions
    for the same dictionary is not. *)
Theorem alerts_rule_table (avgs : gmap string Q) :
  (forall k, k ∈ fixed_metrics -> is_Some (avgs !! k)) ->
  alerts avgs = Return (fired alert_rules avgs)
  /\ ((forall r, r ∈ alert_rules -> ~ rule_holds avgs r) ->
      alerts avgs = Return []
      /\ suggestions_from_averages avgs <> Return []).
Proof.
  intros H.
  destruct (fixed_metrics_present avgs H)
    as (s & hf & jf & ex & w & r & Hs & Hhf & Hjf & Hex & Hw & Hr).
  assert (alerts avgs = Return (fired alert_rules avgs)) as E.
  { unfold alerts.
    rewrite (subscript_present avgs _ _ Hs), (subscript_present avgs _ _ Hw),
      (subscript_present avgs _ _ Hex).
    cbn [mbind result_bind].
    rewrite (append_if_below avgs _ _ _ _ _ Hex),
      (append_if_below avgs _ _ _ _ _ Hs),
      (append_if_below avgs _ _ _ _ _ Hw).
    unfold alert_rules.
    rewrite !(fired_cons _ (_ :: _)). rewrite <- !app_assoc.
    rewrite app_nil_l. reflexivity. }
  split; [exact E|]. intros Hnone. split.
  - rewrite E. by rewrite (filter_none_hold alert_rules avgs Hnone).
  - destruct (suggestions_fired avgs H) as [_ (tip & tips & E')].
    rewrite E'. discriminate.
Qed.

Lemma alerts_rule_table_witness :
  alerts good_averages = Return (fired alert_rules good_averages)
  /\ alerts good_averages = Return []
  /\ suggestions_from_averages good_averages <> Return [].
Proof.
  assert (forall k, k ∈ fixed_metrics -> is_Some (good_averages !! k)) as H.
  { intros k Hk. apply elem_of_dom. revert k Hk. apply elem_of_subseteq.
    apply (bool_decide_unpack _). vm_compute. reflexivity. }
  destruct (alerts_rule_table good_averages H) as [E Hnone].
  split; [exact E|]. apply Hnone.
  intros r Hr. unfold alert_rules in Hr.
  repeat (apply elem_of_cons in Hr as [->|Hr];
          [vm_compute; intros Hlt; discriminate Hlt|]).
  by apply elem_of_nil in Hr.
Defined.

(** Alerts on the two dictionaries of the specification. *)
Example alerts_good_averages : alerts good_averages = Return [].
Proof. vm_compute. reflexivity. Qed.

Example alerts_poor_averages :
  alerts poor_averages = Return [alert_water; alert_sleep; alert_exercise].
Proof. vm_compute. reflexivity. Qed.

(** ** The worked example, end to end *)

(** Three days on three dates: the best day is the second one, whose score
    0.814 is the largest. *)
Example example_week_best_day :
  fmap (M := result) (fmap (M := option) best_day) (analyze_week example_week)
  = Return (Some (Scalar 739001)).
Proof. vm_compute. reflexivity. Qed.

(** Its averages are above the sleep threshold (19/3 is not below 6), below
    the healthy food threshold (8/3 is below 3) and above the junk food
    threshold (4/3 is above 1): of the six rules, the healthy food rule and
    the junk food rule fire. *)
Example example_week_suggestions :
  suggestions_from_averages (mean_to_dict example_week)
  = Return [tip_healthy_food; tip_junk_food].
Proof. vm_compute. reflexivity. Qed.

Example example_week_alerts :
  alerts (mean_to_dict example_week) = Return [].
Proof. vm_compute. reflexivity. Qed.

(** * Further properties of the code *)

(** ** The entry store *)

Lemma reset_index_labels (rows : list Entry) :
  (reset_index rows).*1 = seq 0 (length rows).
Proof. unfold reset_index. apply fst_zip. by rewrite length_seq. Qed.

Lemma reset_index_rows (rows : list Entry) : (reset_index rows).*2 = rows.
Proof. unfold reset_index. apply snd_zip. by rewrite length_seq. Qed.

Lemma reset_index_length (rows : list Entry) :
  length (reset_index rows) = length rows.
Proof. by rewrite <- (length_fmap snd), reset_index_rows. Qed.

Lemma store_step_labels (data : DataFrame) (ev : store_event) :
  (store_step data ev).*1 = seq 0 (length (store_step data ev)).
Proof.
  destruct ev; cbn; [| |reflexivity];
    unfold concat_ignore_index;
    by rewrite reset_index_labels, reset_index_length.
Qed.

Lemma run_store_labels (evs : list store_event) :
  (run_store evs).*1 = seq 0 (length (run_store evs)).
Proof.
  unfold run_store. destruct evs as [|ev evs _] using rev_ind; [done|].
  rewrite fold_left_app. cbn. apply store_step_labels.
Qed.

Lemma run_store_NoDup (evs : list store_event) : NoDup (run_store evs).*1.
Proof. rewrite run_store_labels. apply NoDup_seq. Qed.

(** X1. The index of the store.  Whatever sequence of saves, imports and
    clears a session goes through, the index labels of the store are
    0, 1, ..., n-1 in positional order; no label occurs twice. *)
Theorem store_index_is_range (evs : list store_event) :
  (run_store evs).*1 = seq 0 (length (run_store evs))
  /\ NoDup (run_store evs).*1.
Proof. split; [apply run_store_labels | apply run_store_NoDup]. Qed.

Lemma store_step_rows (data : DataFrame) (ev : store_event) :
  ev <> ClearAll -> (store_step data ev).*2 = data.*2 ++ arrivals ev.
Proof.
  destruct ev; [intros _..|done]; cbn; unfold concat_ignore_index;
    by rewrite !reset_index_rows.
Qed.

(** X2. The store only grows by appending.  As long as the store is not
    cleared, saves and imports keep every row that the store holds, in
    order, and add their rows at the end in the order of arrival: no row is
    dropped, replaced or merged, also when a new row has the date of a row
    that is already there. *)
Theorem store_appends_rows (evs evs' : list store_event) :
  ClearAll ∉ evs' ->
  (run_store (evs ++ evs')).*2
  = (run_store evs).*2 ++ concat (arrivals <$> evs').
Proof.
  induction evs' as [|ev evs' IH] using rev_ind; intros Hclear.
  - by rewrite !app_nil_r.
  - rewrite app_assoc. unfold run_store in *. rewrite fold_left_app. cbn.
    rewrite store_step_rows.
    + rewrite IH.
      * rewrite fmap_app, concat_app. cbn. by rewrite app_nil_r, app_assoc.
      * intros Hin. apply Hclear. apply elem_of_app. by left.
    + intros ->. apply Hclear. apply elem_of_app. right. left.
Qed.

Lemma store_appends_rows_witness :
  (run_store ([SaveEntry day1; SaveEntry day2]
              ++ [ImportCsv [(7%nat, day3)]; SaveEntry day2])).*2
  = (run_store [SaveEntry day1; SaveEntry day2]).*2
    ++ concat (arrivals <$> [ImportCsv [(7%nat, day3)]; SaveEntry day2]).
Proof.
  apply (store_appends_rows [SaveEntry day1; SaveEntry day2]
           [ImportCsv [(7%nat, day3)]; SaveEntry day2]).
  intros Hin. repeat (apply elem_of_cons in Hin as [Hin|Hin];
                      [discriminate Hin|]).
  by apply elem_of_nil in Hin.
Defined.

Example example_session_store :
  (fun r : nat * Entry => (r.1, date r.2)) <$> run_store example_session
  = [(0%nat, 739000%Z); (1%nat, 739001%Z); (2%nat, 739002%Z);
     (3%nat, 739001%Z)].
Proof. reflexivity. Qed.

(** ** Sorting and windows *)

Section SortValues.
Context {A : Type} (key : A -> Z).






End SortValues.




(** ** The advisory rules on the averages of an analysis *)


Lemma alerts_fired (avgs : gmap string Q) :
  (forall k, k ∈ fixed_metrics -> is_Some (avgs !! k)) ->
  alerts avgs = Return (fired alert_rules avgs).
Proof.
  intros H.
  destruct (fixed_metrics_present avgs H)
    as (s & hf & jf & ex & w & r & Hs & Hhf & Hjf & Hex & Hw & Hr).
  unfold alerts.
  rewrite (subscript_present avgs _ _ Hs), (subscript_present avgs _ _ Hw),
    (subscript_present avgs _ _ Hex).
  cbn [mbind result_bind].
  rewrite (append_if_below avgs _ _ _ _ _ Hex),
    (append_if_below avgs _ _ _ _ _ Hs),
    (append_if_below avgs _ _ _ _ _ Hw).
  unfold alert_rules.
  rewrite !(fired_cons _ (_ :: _)). rewrite <- !app_assoc.
  rewrite app_nil_l. reflexivity.
Qed.


(** ** The weekly panel *)







(** ** How the two rule sets relate *)

Lemma elem_of_fired (rules : list rule) (avg : gmap string Q) (msg : string) :
  msg ∈ fired rules avg <->
  exists r, r ∈ rules /\ rule_holds avg r /\ rule_message r = msg.
Proof.
  unfold fired. rewrite list_elem_of_fmap. split.
  - intros (r & -> & Hr). apply list_elem_of_filter in Hr as [Hh Hr]. eauto.
  - intros (r & Hr & Hh & <-). exists r. split; [done|].
    by apply list_elem_of_filter.
Qed.

Lemma elem_of_or_praise (tips : list string) (msg : string) :
  msg ∈ or_praise tips <->
  msg ∈ tips \/ (tips = [] /\ msg = tip_great_week).
Proof.
  destruct tips as [|t tips]; cbn.
  - rewrite list_elem_of_singleton. split; [by right|].
    intros [H|[_ ->]]; [by apply elem_of_nil in H | done].
  - split; [by left|]. by intros [H|[? _]].
Qed.

(** Whether the rule of one message holds, read off the dictionary. *)
Ltac rule_of_message H :=
  let r := fresh "r" in
  let Hr := fresh "Hr" in
  let Hh := fresh "Hh" in
  let Hm := fresh "Hm" in
  apply elem_of_fired in H as (r & Hr & Hh & Hm);
  repeat (apply elem_of_cons in Hr as [->|Hr];
          [first [discriminate Hm | cbn in Hm; subst]|]);
  try (by apply elem_of_nil in Hr).

Lemma fired_rule (rules : list rule) (avg : gmap string Q) (r : rule) :
  r ∈ rules -> rule_holds avg r -> rule_message r ∈ fired rules avg.
Proof. intros Hr Hh. apply elem_of_fired. eauto. Qed.

Lemma praise_not_fired (avg : gmap string Q) :
  tip_great_week ∉ fired suggestion_rules avg.
Proof. intros H. rule_of_message H. Qed.

(** X5. Every alert comes with its suggestion.  On a dictionary that holds
    the six fixed metrics, when the water alert is raised the water
    suggestion is given, the sleep alert is raised exactly when the sleep
    suggestion is given, and when the exercise alert is raised the
    exercise suggestion is given.  So the positive message is never shown
    next to an alert. *)
Theorem alerts_come_with_suggestions (avg : gmap string Q) :
  (forall k, k ∈ fixed_metrics -> is_Some (avg !! k)) ->
  exists tips warnings,
    suggestions_from_averages avg = Return tips
    /\ alerts avg = Return warnings
    /\ (alert_water ∈ warnings -> tip_water ∈ tips)
    /\ (alert_sleep ∈ warnings <-> tip_sleep ∈ tips)
    /\ (alert_exercise ∈ warnings -> tip_exercise ∈ tips)
    /\ (warnings <> [] -> tip_great_week ∉ tips).
Proof.
  intros H.
  destruct (suggestions_fired avg H) as [Etips _].
  pose proof (alerts_fired avg H) as Ewarn.
  destruct (fixed_metrics_present avg H)
    as (s & hf & jf & ex & w & r & Hs & Hhf & Hjf & Hex & Hw & Hr).
  eexists _, _. split; [exact Etips|]. split; [exact Ewarn|].
  assert (alert_water ∈ fired alert_rules avg ->
          tip_water ∈ fired suggestion_rules avg) as Hwater.
  { intros Hin. rule_of_message Hin.
    apply (fired_rule suggestion_rules avg
             {| rule_metric := "water"; rule_side := IsBelow;
                rule_threshold := 6; rule_message := tip_water |});
      [unfold suggestion_rules; repeat constructor|].
    unfold rule_holds in *; cbn in *. rewrite Hw in *. lra. }
  assert (alert_sleep ∈ fired alert_rules avg <->
          tip_sleep ∈ fired suggestion_rules avg) as Hsleep.
  { split; intros Hin; rule_of_message Hin.
    - apply (fired_rule suggestion_rules avg
               {| rule_metric := "sleep"; rule_side := IsBelow;
                  rule_threshold := 6; rule_message := tip_sleep |});
        [unfold suggestion_rules; repeat constructor|].
      unfold rule_holds in *; cbn in *. rewrite Hs in *. lra.
    - apply (fired_rule alert_rules avg
               {| rule_metric := "sleep"; rule_side := IsBelow;
                  rule_threshold := 6; rule_message := alert_sleep |});
        [unfold alert_rules; repeat constructor|].
      unfold rule_holds in *; cbn in *. rewrite Hs in *. lra. }
  assert (alert_exercise ∈ fired alert_rules avg ->
          tip_exercise ∈ fired suggestion_rules avg) as Hexercise.
  { intros Hin. rule_of_message Hin.
    apply (fired_rule suggestion_rules avg
             {| rule_metric := "exercise"; rule_side := IsBelow;
                rule_threshold := 20; rule_message := tip_exercise |});
      [unfold suggestion_rules; repeat constructor|].
    unfold rule_holds in *; cbn in *. rewrite Hex in *. lra. }
  repeat split.
  - intros Hin. apply elem_of_or_praise. left. by apply Hwater.
  - intros Hin. apply elem_of_or_praise. left. by apply Hsleep.
  - intros Hin. apply elem_of_or_praise in Hin as [Hin|[_ Hin]];
      [by apply Hsleep | discriminate Hin].
  - intros Hin. apply elem_of_or_praise. left. by apply Hexercise.
  - intros Hne Hin. apply elem_of_or_praise in Hin as [Hin|[Hnil _]].
    + by apply (praise_not_fired avg).
    + destruct (fired alert_rules avg) as [|a l] eqn:Ea; [done|].
      assert (a ∈ fired alert_rules avg) as Ha by (rewrite Ea; left).
      pose proof Ha as Ha'. rule_of_message Ha'.
      * assert (tip_water ∈ fired suggestion_rules avg) as Hc
          by (apply Hwater; left).
        rewrite Hnil in Hc. by apply elem_of_nil in Hc.
      * assert (tip_sleep ∈ fired suggestion_rules avg) as Hc
          by (apply Hsleep; left).
        rewrite Hnil in Hc. by apply elem_of_nil in Hc.
      * assert (tip_exercise ∈ fired suggestion_rules avg) as Hc
          by (apply Hexercise; left).
        rewrite Hnil in Hc. by apply elem_of_nil in Hc.
Qed.

Lemma fixed_metrics_in_dom (avg : gmap string Q) :
  bool_decide (fixed_metrics ⊆ dom avg) = true ->
  forall k, k ∈ fixed_metrics -> is_Some (avg !! k).
Proof.
  intros H k Hk. apply elem_of_dom. revert k Hk. apply elem_of_subseteq.
  by apply bool_decide_eq_true in H.
Qed.

Lemma alerts_come_with_suggestions_witness :
  exists tips warnings,
    suggestions_from_averages poor_averages = Return tips
    /\ alerts poor_averages = Return warnings
    /\ (alert_water ∈ warnings -> tip_water ∈ tips)
    /\ (alert_sleep ∈ warnings <-> tip_sleep ∈ tips)
    /\ (alert_exercise ∈ warnings -> tip_exercise ∈ tips)
    /\ (warnings <> [] -> tip_great_week ∉ tips).
Proof.
  apply (alerts_come_with_suggestions poor_averages).
  apply fixed_metrics_in_dom. vm_compute. reflexivity.
Defined.

(** ** Averages *)












(** ** Scores of the rows of a frame *)

Lemma row_series_fields (e : Entry) :
  get (row_series e) "sleep" 0 = sleep e
  /\ get (row_series e) "healthy_food" 0 = healthy_food e
  /\ get (row_series e) "junk_food" 0 = junk_food e
  /\ get (row_series e) "exercise" 0 = exercise e
  /\ get (row_series e) "water" 0 = water e
  /\ get (row_series e) "reading" 0 = reading e.
Proof. unfold row_series, get. repeat split; by simplify_map_eq. Qed.

Lemma entry_score_unfold (e : Entry) :
  entry_score e =
  score_of (sleep e) (healthy_food e) (junk_food e) (exercise e) (water e)
    (reading e).
Proof.
  unfold entry_score. rewrite composite_score_unfold.
  destruct (row_series_fields e) as (-> & -> & -> & -> & -> & ->).
  reflexivity.
Qed.

Lemma score_of_range (s hf jf ex w r : Q) :
  0 <= s -> 0 <= hf -> 0 <= jf -> 0 <= ex -> 0 <= w -> 0 <= r ->
  0 <= score_of s hf jf ex w r <= 1.
Proof.
  intros H1 H2 H3 H4 H5 H6. unfold score_of.
  pose proof (clamp_range 9.0 ltac:(reflexivity) _ H1).
  pose proof (clamp_range 5.0 ltac:(reflexivity) _ H2).
  pose proof (clamp_range 5.0 ltac:(reflexivity) _ H3).
  pose proof (clamp_range 60.0 ltac:(reflexivity) _ H4).
  pose proof (clamp_range 8.0 ltac:(reflexivity) _ H5).
  pose proof (clamp_range 60.0 ltac:(reflexivity) _ H6).
  lra.
Qed.

Lemma entry_score_range (e : Entry) :
  nonnegative_entry e -> 0 <= entry_score e <= 1.
Proof.
  intros (H1 & H2 & H3 & H4 & H5 & H6). rewrite entry_score_unfold.
  by apply score_of_range.
Qed.

Lemma date_score_range (df : DataFrame) (x : nat * (Z * Q)) :
  (forall r, r ∈ df -> nonnegative_entry r.2) ->
  x ∈ date_score df -> 0 <= x.2.2 <= 1.
Proof.
  intros H Hx. unfold date_score in Hx.
  apply list_elem_of_fmap in Hx as (r & -> & Hr).
  apply (entry_score_range r.2), H, Hr.
Qed.

(** X8. The score series of an analysis.  On a non-empty frame whose rows
    have non-negative fixed fields, every score of the series that
    [analyze_week] returns lies between 0 and 1. *)
Theorem analysis_scores_in_unit_interval (df : DataFrame) :
  df <> [] -> (forall r, r ∈ df -> nonnegative_entry r.2) ->
  exists s, analyze_week df = Return (Some s)
            /\ forall x, x ∈ scores s -> 0 <= x.2.2 <= 1.
Proof.
  intros Hne H.
  destruct (analyze_week_returns df Hne) as (i & r & d & _ & _ & _ & E).
  eexists. split; [exact E|]. cbn [scores]. intros x Hx.
  rewrite (sort_values_date_perm (date_score df)) in Hx.
  by apply (date_score_range df).
Qed.

Lemma analysis_scores_in_unit_interval_witness :
  exists s, analyze_week example_week = Return (Some s)
            /\ forall x, x ∈ scores s -> 0 <= x.2.2 <= 1.
Proof.
  apply (analysis_scores_in_unit_interval example_week).
  - discriminate.
  - intros r Hr. unfold example_week in Hr.
    repeat (apply elem_of_cons in Hr as [->|Hr];
            [repeat split; vm_compute; discriminate|]).
    by apply elem_of_nil in Hr.
Defined.

(** ** Averages do not depend on the order of the rows *)





(** ** Quick insights *)




(** ** More on the scoring engine *)

Lemma not_fixed_metric (k : string) :
  k ∉ fixed_metrics ->
  k <> "sleep" /\ k <> "healthy_food" /\ k <> "junk_food"
  /\ k <> "exercise" /\ k <> "water" /\ k <> "reading".
Proof.
  unfold fixed_metrics, metric_table. cbn. intros H.
  repeat split; intros ->; apply H; set_solver.
Qed.

(** X11. Custom habits do not enter the score.  A column that is not one of
    the six fixed metrics leaves the score of a row unchanged, whatever its
    value, and two rows of a frame that differ only in their custom habit
    values have the same score. *)
Theorem custom_habits_not_scored (row : Series) (k : string) (v : Q)
    (e : Entry) (c : gmap string Q) :
  k ∉ fixed_metrics ->
  composite_score (<[k := v]> row) = composite_score row
  /\ entry_score (with_custom e c) = entry_score e.
Proof.
  intros Hk. split; [|by rewrite !entry_score_unfold].
  destruct (not_fixed_metric k Hk) as (H1 & H2 & H3 & H4 & H5 & H6).
  rewrite !composite_score_unfold, !get_insert.
  by rewrite !decide_False by done.
Qed.

Lemma custom_habits_not_scored_witness :
  composite_score (<["Meditation" := 20]> day2_row) = composite_score day2_row
  /\ entry_score (with_custom day2 (custom day2_with_habits))
     = entry_score day2.
Proof.
  apply (custom_habits_not_scored day2_row "Meditation" 20 day2).
  apply (bool_decide_unpack _). vm_compute. reflexivity.
Defined.






(** ** The store and the panels together *)



(** The session of the example: the second day and the row saved last tie
    for the best score, and share their date. *)
Example example_session_panel :
  match weekly_panel 739003 (run_store example_session) with
  | Return (WeeklyAnalysis best _ tips warnings) =>
      best = Scalar 739001 /\ tips = [tip_great_week] /\ warnings = []
  | _ => False
  end.
Proof. vm_compute. done. Qed.

(** ** The composite chart *)

(** X15. The composite chart.  Every row of the store that the weekly panel
    analyzes (dated within the last seven days) is also a point of the
    30-day chart, with its date and its composite score; and when the fixed
    fields of the rows of the store are non-negative, every plotted score
    lies between 0 and 1, the range that the axis of the chart names. *)
Theorem chart_covers_weekly_window (today : Z) (data : DataFrame)
    (r : nat * Entry) :
  r ∈ data -> (today - 6 <= date r.2)%Z ->
  exists points,
    composite_chart today data = ScoreChart points
    /\ (r.1, (date r.2, entry_score r.2)) ∈ points
    /\ ((forall r', r' ∈ data -> nonnegative_entry r'.2) ->
        forall x, x ∈ points -> 0 <= x.2.2 <= 1).
Proof.
  intros Hr Hd.
  assert (r ∈ since 29 today data) as Hin.
  { unfold since. apply list_elem_of_filter. split; [|exact Hr].
    unfold row_date. lia. }
  exists (date_score (since 29 today data)). split; [|split].
  - unfold composite_chart. destruct data as [|r0 data'].
    + by apply elem_of_nil in Hr.
    + destruct (since 29 today (r0 :: data')) as [|a l] eqn:E; [|done].
      by apply elem_of_nil in Hin.
  - unfold date_score. apply list_elem_of_fmap. exists r. done.
  - intros Hnn x Hx. apply (date_score_range (since 29 today data)); [|done].
    intros r' Hr'. apply Hnn. unfold since in Hr'.
    by apply list_elem_of_filter in Hr' as [_ Hr'].
Qed.

Lemma chart_covers_weekly_window_witness :
  exists points,
    composite_chart 739003 (run_store example_session) = ScoreChart points
    /\ (1%nat, (date day2, entry_score day2)) ∈ points
    /\ ((forall r', r' ∈ run_store example_session ->
                    nonnegative_entry r'.2) ->
        forall x, x ∈ points -> 0 <= x.2.2 <= 1).
Proof.
  apply (chart_covers_weekly_window 739003 (run_store example_session)
           (1%nat, day2)).
  - apply list_elem_of_lookup. exists 1%nat. reflexivity.
  - vm_compute. discriminate.
Defined.
